(** * Shallow embedding of the Transgourmet shopping cart ([CartApi])

    The cart store is the class field [cartStorage : Map<string, Cart>],
    modelled as a [gmap string Cart].  Every method of [CartApi] becomes a
    state transformer over that map (the class instance is the state).
    The catalog call [fetchTransgourmetArticleDetails] and the UUID source
    [randomUUID] are external collaborators and are Section variables. *)

From Stdlib Require Import ZArith QArith String Ascii.
From stdpp Require Import base gmap strings list pretty.

Open Scope Z_scope.

(** ** Data model (interfaces [CartPosition], [Cart], ...) *)

Record CartPosition := mkPosition {
  articleNumber : string;
  quantity : Z
}.

Record Cart := mkCart { positions : list CartPosition }.

Module Display.
Record CartPositionDisplay := mkPositionDisplay {
  articleNumber : string;
  quantity : Z;
  description : string;
  price : Q;
  imageUrl : string
}.

Record CartDisplay := mkCartDisplay {
  positions : list CartPositionDisplay;
  totalPositions : Z
}.
End Display.

(** Result of the catalog call: [fetchTransgourmetArticleDetails] either
    resolves with the article details or rejects (throws). *)
Record ArticleDetails := mkArticleDetails {
  ad_articleNumber : string;
  ad_description : string;
  ad_normalPrice : Q
}.

Inductive Result (A : Type) : Type :=
| Ok : A -> Result A
| Err : string -> Result A.
Arguments Ok {A} _.
Arguments Err {A} _.

Definition bindR {A B} (r : Result A) (k : A -> Result B) : Result B :=
  match r with Ok a => k a | Err e => Err e end.

(** [try { body } catch (error) { handler }] *)
Definition tryCatch {A} (body : Result A) (handler : string -> Result A) : Result A :=
  match body with Ok a => Ok a | Err e => handler e end.

(** ** The store and a state monad over it *)

Abbreviation Store := (gmap string Cart).

Definition St (A : Type) : Type := Store -> A * Store.
Definition retS {A} (a : A) : St A := fun s => (a, s).
Definition bindS {A B} (m : St A) (k : A -> St B) : St B :=
  fun s => let (a, s') := m s in k a s'.

Notation "x <-- m ;; k" := (bindS m (fun x => k))
  (at level 100, m at next level, right associativity).

(** [this.cartStorage.set(username, cart)] *)
Definition setS (username : string) (cart : Cart) : St unit :=
  fun s => (tt, <[username := cart]> s).

(** [Array.prototype.findIndex] with [pos.articleNumber === a]; [None]
    stands for the result [-1]. *)
Fixpoint findIndex (a : string) (l : list CartPosition) : option nat :=
  match l with
  | [] => None
  | pos :: l' =>
      if String.eqb (articleNumber pos) a then Some 0%nat
      else match findIndex a l' with Some i => Some (S i) | None => None end
  end.

(** [cart.positions[i].quantity += q] *)
Definition addQuantity (q : Z) (pos : CartPosition) : CartPosition :=
  mkPosition (articleNumber pos) (quantity pos + q).

(** [cart.positions[i].quantity = q] *)
Definition setQuantity (q : Z) (pos : CartPosition) : CartPosition :=
  mkPosition (articleNumber pos) q.

Definition emptyCart : Cart := mkCart [].

(** ** Methods of [CartApi] *)

(** [getCartInternal]: [this.cartStorage.get(username) || { positions: [] }] *)
Definition getCartInternal (username : string) : St Cart :=
  fun s => (default emptyCart (s !! username), s).

Definition addToCart (username articleNumber0 : string) (quantity0 : Z) : St Cart :=
  cart <-- getCartInternal username ;;
  let cart' :=
    match findIndex articleNumber0 (positions cart) with
    | Some i => mkCart (alter (addQuantity quantity0) i (positions cart))
    | None => mkCart (positions cart ++ [mkPosition articleNumber0 quantity0])
    end in
  _ <-- setS username cart' ;;
  retS cart'.

(** The loop body of [addMultipleToCart] for one input [position]. *)
Definition addMultipleStep (ps : list CartPosition) (position : CartPosition)
  : list CartPosition :=
  match findIndex (articleNumber position) ps with
  | Some i => alter (addQuantity (quantity position)) i ps
  | None => ps ++ [mkPosition (articleNumber position) (quantity position)]
  end.

Definition addMultipleToCart (username : string) (positions0 : list CartPosition)
  : St Cart :=
  cart <-- getCartInternal username ;;
  let cart' := mkCart (fold_left addMultipleStep positions0 (positions cart)) in
  _ <-- setS username cart' ;;
  retS cart'.

Definition removeFromCart (username articleNumber0 : string) : St Cart :=
  cart <-- getCartInternal username ;;
  let cart' := mkCart (List.filter (fun pos => negb (String.eqb (articleNumber pos) articleNumber0))
                              (positions cart)) in
  _ <-- setS username cart' ;;
  retS cart'.

Definition updateCartPosition (username articleNumber0 : string) (quantity0 : Z)
  : St Cart :=
  cart <-- getCartInternal username ;;
  let cart' :=
    match findIndex articleNumber0 (positions cart) with
    | Some i => mkCart (alter (setQuantity quantity0) i (positions cart))
    | None => mkCart (positions cart ++ [mkPosition articleNumber0 quantity0])
    end in
  _ <-- setS username cart' ;;
  retS cart'.

Definition clearCart (username : string) : St unit :=
  setS username emptyCart.

(** [cart.positions.reduce((total, pos) => total + pos.quantity, 0)] *)
Definition sumQuantities (ps : list CartPosition) : Z :=
  fold_left (fun total pos => total + quantity pos) ps 0.

Definition getCartItemCount (username : string) : St Z :=
  cart <-- getCartInternal username ;;
  retS (sumQuantities (positions cart)).

(** ** [getCart]: enrichment against the catalog *)

Section Catalog.

(** [fetchTransgourmetArticleDetails(articleNumber)]: [Err] when the
    promise rejects (network error, non-OK status, unparsable body). *)
Variable fetchTransgourmetArticleDetails : string -> Result ArticleDetails.

(** [`https://webshop.transgourmet.ch/images/articles/120px/${a}.jpg`] *)
Definition imageUrlFor (a : string) : string :=
  "https://webshop.transgourmet.ch/images/articles/120px/" ++ a ++ ".jpg".

(** [d || ""] on a string *)
Definition jsOrEmpty (d : string) : string :=
  if String.eqb d "" then "" else d.

(** The [for (const pos of cart.positions)] loop with its try/catch;
    [acc] is the [positions] array that the loop pushes onto. *)
Fixpoint fetchPositions (ps : list CartPosition)
    (acc : list Display.CartPositionDisplay)
  : Result (list Display.CartPositionDisplay) :=
  match ps with
  | [] => Ok acc
  | pos :: ps' =>
      bindR
        (tryCatch
           (bindR (fetchTransgourmetArticleDetails (articleNumber pos)) (fun articleDetails =>
              Ok (acc ++ [Display.mkPositionDisplay
                            (articleNumber pos)
                            (quantity pos)
                            (jsOrEmpty (ad_description articleDetails))
                            (ad_normalPrice articleDetails)
                            (imageUrlFor (articleNumber pos))])))
           (fun _error =>
              Ok (acc ++ [Display.mkPositionDisplay
                            (articleNumber pos)
                            (quantity pos)
                            ""
                            0%Q
                            (imageUrlFor (articleNumber pos))])))
        (fun acc' => fetchPositions ps' acc')
  end.

Definition getCart (username : string) : St (Result Display.CartDisplay) :=
  cart <-- getCartInternal username ;;
  retS (bindR (fetchPositions (positions cart) []) (fun positions =>
    let totalPositions :=
      fold_left (fun total pos => total + Display.quantity pos) positions 0 in
    Ok (Display.mkCartDisplay positions totalPositions))).

End Catalog.

(** ** [submitCart] *)

Section Submit.

(** [randomUUID()] from [node:crypto], drawing from an entropy state. *)
Variable Seed : Type.
Variable randomUUID : Seed -> string * Seed.

Definition submitCart (username : string) (st : Store * Seed)
  : string * (Store * Seed) :=
  let (s, seed) := st in
  let (orderId, seed') := randomUUID seed in
  let (_, s') := clearCart username s in
  (orderId, (s', seed')).

(** A history of earlier submissions, returning the issued order ids. *)
Fixpoint submitAll (usernames : list string) (st : Store * Seed)
  : list string * (Store * Seed) :=
  match usernames with
  | [] => ([], st)
  | u :: us =>
      let (id, st') := submitCart u st in
      let (ids, st'') := submitAll us st' in
      (id :: ids, st'')
  end.

(** The first [n] values [randomUUID] produces from [seed]. *)
Fixpoint uuidStream (seed : Seed) (n : nat) : list string :=
  match n with
  | O => []
  | S n' => let (id, seed') := randomUUID seed in id :: uuidStream seed' n'
  end.

End Submit.

(** ** Specification-side notions *)

(** Sum of a list of integers. *)
Definition sumZ (l : list Z) : Z := foldr Z.add 0 l.

(** At most one line per article number. *)
Definition uniqueArticles (c : Cart) : Prop :=
  NoDup (articleNumber <$> positions c).

Definition storeOk (s : Store) : Prop :=
  map_Forall (fun _ c => uniqueArticles c) s.

(** The lines of [ps] for article [a]. *)
Definition linesFor (a : string) (ps : list CartPosition) : list CartPosition :=
  filter (fun p => articleNumber p = a) ps.

(** [n] successive [addToCart] calls for one article. *)
Definition addToCartSeq (username a : string) (qs : list Z) (s : Store) : Store :=
  fold_left (fun s q => snd (addToCart username a q s)) qs s.

(** [addToCart] folded over a list of positions. *)
Definition addToCartFold (username : string) (ps : list CartPosition) (s : Store) : Store :=
  fold_left (fun s p => snd (addToCart username (articleNumber p) (quantity p) s)) ps s.

Arguments submitCart {Seed} _ _ _.
Arguments submitAll {Seed} _ _ _.
Arguments uuidStream {Seed} _ _ _.

(** The display line the loop body pushes for [pos]: the full line when
    the catalog call resolves, the default line when it rejects. *)
Definition enrichLine (fetch : string -> Result ArticleDetails) (pos : CartPosition)
  : Display.CartPositionDisplay :=
  match fetch (articleNumber pos) with
  | Ok d => Display.mkPositionDisplay (articleNumber pos) (quantity pos)
              (jsOrEmpty (ad_description d)) (ad_normalPrice d) (imageUrlFor (articleNumber pos))
  | Err _ => Display.mkPositionDisplay (articleNumber pos) (quantity pos)
              "" 0%Q (imageUrlFor (articleNumber pos))
  end.

(** An order-id source for the witness: the decimal rendering of a counter. *)
Definition counterUUID (n : nat) : string * nat := (pretty n, S n).

(** ** [fetchTransgourmetArticleDetails] (transgourmet-api.ts) *)

(** A JSON value as [response.json()] yields it; [JNumber] holds the
    double the parser produced. *)
#[warnings="-register-all"]
Inductive JsonValue :=
| JNull
| JBool (b : bool)
| JNumber (n : Q)
| JString (s : string)
| JArray (items : list JsonValue)
| JObject (members : list (string * JsonValue)).

(** The body of the GET reply as [response.json()] reads it: a parse
    failure (the promise rejects with the parser's message) or a value. *)
Inductive JsonBody :=
| Unparsable (message : string)
| Parsed (v : JsonValue).

(** JavaScript truthiness of a parsed value: [null], [false], [0] and the
    empty string are falsy; arrays and objects, even empty ones, are truthy. *)
Definition jsTruthy (v : JsonValue) : bool :=
  match v with
  | JNull => false
  | JBool b => b
  | JNumber n => negb (Qeq_bool n 0)
  | JString s => negb (String.eqb s "")
  | JArray _ | JObject _ => true
  end.

(** The member [key] of a parsed object; [JSON.parse] keeps the last of
    duplicate keys. *)
Definition lastMember (key : string) (members : list (string * JsonValue)) : option JsonValue :=
  fold_left (fun acc kv => if String.eqb (fst kv) key then Some (snd kv) else acc) members None.

(** [data.key] for the three keys read here, [None] standing for
    [undefined]: numbers, strings, booleans and arrays have none of them. *)
Definition jsProperty (v : JsonValue) (key : string) : option JsonValue :=
  match v with JObject members => lastMember key members | _ => None end.

(** The object [{ articleNumber, description, normalPrice }] the function
    returns, each field a JavaScript value or [undefined] ([None]). *)
Record FetchedDetails := mkFetchedDetails {
  fd_articleNumber : option JsonValue;
  fd_description : option JsonValue;
  fd_normalPrice : option JsonValue
}.

(** What [await fetch(apiUrl, ...)] produces: a rejection or a response. *)
Inductive HttpResponse :=
| NetworkFailure (message : string)
| HttpReply (status : Z) (statusText : string) (body : JsonBody).

(** [response.ok]: status in 200..299 *)
Definition responseOk (status : Z) : bool := (200 <=? status) && (status <=? 299).

Definition articleDetailsUrl (articleNumber0 : string) : string :=
  "https://webshop.transgourmet.ch/api/webshop/hub/bgh/articledetails/" ++ articleNumber0.

(** [fetchTransgourmetArticleDetails]; its catch block logs and rethrows,
    so every error reaches the caller unchanged. *)
Definition fetchTransgourmetArticleDetails (httpGet : string -> HttpResponse)
    (articleNumber0 : string) : Result FetchedDetails :=
  let apiUrl := articleDetailsUrl articleNumber0 in
  match httpGet apiUrl with
  | NetworkFailure message => Err message
  | HttpReply status statusText body =>
      if negb (responseOk status) then
        Err ("API request failed: " ++ apiUrl ++ " - " ++ pretty status ++ " " ++ statusText)%string
      else
        match body with
        | Unparsable message => Err message
        | Parsed data =>
            if negb (jsTruthy data) then Err "Article data not found in response"
            else
              Ok (mkFetchedDetails (jsProperty data "articleNumber")
                                   (jsProperty data "description")
                                   (jsProperty data "normalPrice"))
        end
  end.

(** ** [escapeHtml] (generate-products-html.ts) *)

Definition dquote : ascii := Ascii.ascii_of_nat 34.

(** [map[m]] for the five characters of the regular expression in
    [escapeHtml] (ampersand, less-than, greater-than, double quote,
    apostrophe); any other character is left as it is. *)
Definition escapeChar (c : ascii) : string :=
  if Ascii.eqb c "&" then "&amp;"
  else if Ascii.eqb c "<" then "&lt;"
  else if Ascii.eqb c ">" then "&gt;"
  else if Ascii.eqb c dquote then "&quot;"
  else if Ascii.eqb c "'" then "&#039;"
  else String c EmptyString.

(** [text.replace(regex, (m) => map[m])] with the global regular
    expression of the five characters above. *)
Fixpoint escapeHtml (text : string) : string :=
  match text with
  | EmptyString => EmptyString
  | String c rest => escapeChar c ++ escapeHtml rest
  end.

(** Decoding of the five entities, the inverse used to show that no two
    texts are escaped alike. *)
Fixpoint unescapeHtml (s : string) : string :=
  match s with
  | String "&" (String "a" (String "m" (String "p" (String ";" r)))) =>
      String "&" (unescapeHtml r)
  | String "&" (String "l" (String "t" (String ";" r))) => String "<" (unescapeHtml r)
  | String "&" (String "g" (String "t" (String ";" r))) => String ">" (unescapeHtml r)
  | String "&" (String "q" (String "u" (String "o" (String "t" (String ";" r))))) =>
      String dquote (unescapeHtml r)
  | String "&" (String "#" (String "0" (String "3" (String "9" (String ";" r))))) =>
      String "'" (unescapeHtml r)
  | String c r => String c (unescapeHtml r)
  | EmptyString => EmptyString
  end.

Definition htmlSpecial (c : ascii) : Prop :=
  c = "&"%char \/ c = "<"%char \/ c = ">"%char \/ c = dquote \/ c = "'"%char.

(** ** Tool handlers of [MyMCP.init] (generate-products-html.ts) *)

(** [String.prototype.trim] on strings of code units below 256: the
    JavaScript white space and line terminators in that range are TAB, LF,
    VT, FF, CR, SPACE and NO-BREAK SPACE. *)
Definition isJsSpace (c : ascii) : bool :=
  match Ascii.nat_of_ascii c with
  | 9 | 10 | 11 | 12 | 13 | 32 | 160 => true
  | _ => false
  end%nat.

Fixpoint trimStartL (l : list ascii) : list ascii :=
  match l with
  | [] => []
  | c :: l' => if isJsSpace c then trimStartL l' else l
  end.

Definition jsTrim (s : string) : string :=
  string_of_list_ascii (rev (trimStartL (rev (trimStartL (list_ascii_of_string s))))).

(** [args?.x?.trim?.() ?? ""]: [None] for a missing or non-string argument *)
Definition trimmedArg (arg : option string) : string :=
  match arg with Some s => jsTrim s | None => "" end.

Definition quoted (s : string) : string := (String dquote s ++ String dquote EmptyString)%string.

(** [`${n}`] for an integer-valued JavaScript number *)
Definition showZ (n : Z) : string := pretty n.

(** Handler of [add_article_to_transgourmet_cart] (the catch block is
    unreachable: [addToCart] does not throw on a well-formed store). *)
Definition addArticleHandler (argArticleNumber argUsername : option string)
    (argQuantity : option Z) : St string :=
  let articleNumber0 := trimmedArg argArticleNumber in
  let username := trimmedArg argUsername in
  let quantity0 := default 1 argQuantity in
  if String.eqb articleNumber0 "" then retS "Missing article number."
  else if String.eqb username "" then retS "Missing username."
  else
    cart <-- addToCart username articleNumber0 quantity0 ;;
    match List.find (fun pos => String.eqb (articleNumber pos) articleNumber0) (positions cart) with
    | Some position =>
        retS ("Added " ++ showZ quantity0 ++ " of article " ++ articleNumber0 ++
              " to cart for user " ++ quoted username ++ ". Current quantity: " ++
              showZ (quantity position) ++ ".")%string
    | None =>
        retS ("Added " ++ showZ quantity0 ++ " of article " ++ articleNumber0 ++
              " to cart for user " ++ quoted username ++ ".")%string
    end.

(** One element of the [positions] argument: [articleNumber] and [quantity]
    ([None] when missing); the element itself may be [null]. *)
Record PositionArg := mkPositionArg {
  pa_articleNumber : option string;
  pa_quantity : option Z
}.

(** [{ articleNumber: pos?.articleNumber?.trim?.() ?? "", quantity: pos?.quantity ?? 1 }] *)
Definition normalizePosition (pos : option PositionArg) : CartPosition :=
  match pos with
  | Some p => mkPosition (trimmedArg (pa_articleNumber p)) (default 1 (pa_quantity p))
  | None => mkPosition "" 1
  end.

(** [positions.map(...).filter((pos) => pos.articleNumber.length > 0)] *)
Definition normalizePositions (ps : list (option PositionArg)) : list CartPosition :=
  List.filter (fun pos => Nat.ltb 0 (String.length (articleNumber pos)))
              (map normalizePosition ps).

(** Handler of [add_multiple_articles_to_transgourmet_cart] *)
Definition addMultipleArticlesHandler (argUsername : option string)
    (argPositions : option (list (option PositionArg))) : St string :=
  let username := trimmedArg argUsername in
  let positions0 := default [] argPositions in
  if String.eqb username "" then retS "Missing username."
  else if Nat.eqb (length positions0) 0 then retS "Missing or empty positions array."
  else
    let normalizedPositions := normalizePositions positions0 in
    if Nat.eqb (length normalizedPositions) 0 then
      retS "No valid positions provided. Each position must have an articleNumber."
    else
      cart <-- addMultipleToCart username normalizedPositions ;;
      let addedItems := String.concat ", "
        (map (fun pos => showZ (quantity pos) ++ "x " ++ articleNumber pos)%string normalizedPositions) in
      retS ("Added " ++ showZ (Z.of_nat (length normalizedPositions)) ++
            " position(s) to cart for user " ++ quoted username ++ ": " ++ addedItems ++
            ". Cart now contains " ++ showZ (Z.of_nat (length (positions cart))) ++
            " position(s).")%string.

(** Handler of [submit_transgourmet_cart] *)
Definition submitCartHandler {Seed} (randomUUID : Seed -> string * Seed)
    (argUsername : option string) (st : Store * Seed) : string * (Store * Seed) :=
  let username := trimmedArg argUsername in
  if String.eqb username "" then ("Missing username.", st)
  else
    let (orderId, st') := submitCart randomUUID username st in
    (("Cart submitted successfully for user " ++ quoted username ++ ". Order ID: " ++
     orderId ++ ".")%string, st').

(** Every stored line has a non-empty article number. *)
Definition noBlankArticles (s : Store) : Prop :=
  map_Forall (fun _ c => Forall (fun p => articleNumber p <> "") (positions c)) s.

(** ** Helper lemmas *)

Definition curCart (username : string) (s : Store) : Cart :=
  default emptyCart (s !! username).

Lemma addToCart_eq u a q s :
  addToCart u a q s =
  (mkCart (addMultipleStep (positions (curCart u s)) (mkPosition a q)),
   <[u := mkCart (addMultipleStep (positions (curCart u s)) (mkPosition a q))]> s).
Proof.
  unfold addToCart, addMultipleStep, bindS, getCartInternal, setS, retS, curCart; simpl.
  by destruct (findIndex a _).
Qed.

Lemma findIndex_Some a l i :
  findIndex a l = Some i ->
  exists l1 p l2, l = l1 ++ p :: l2 /\ i = length l1 /\ articleNumber p = a /\
                  Forall (fun x => articleNumber x <> a) l1.
Proof.
  revert i. induction l as [|x l IH]; intros i H; simpl in H; [discriminate|].
  destruct (String.eqb_spec (articleNumber x) a) as [E|E].
  - injection H as <-. exists [], x, l. auto.
  - destruct (findIndex a l) as [j|] eqn:Hj; [|discriminate].
    injection H as <-. destruct (IH j eq_refl) as (l1 & p & l2 & -> & -> & Hp & Hf).
    exists (x :: l1), p, l2. simpl. auto.
Qed.

Lemma findIndex_None a l :
  findIndex a l = None -> a ∉ articleNumber <$> l.
Proof.
  induction l as [|x l IH]; simpl; intros H.
  - apply not_elem_of_nil.
  - destruct (String.eqb_spec (articleNumber x) a) as [E|E]; [discriminate|].
    destruct (findIndex a l); [discriminate|].
    rewrite elem_of_cons. intros [Hx|Hx]; [congruence|by apply IH].
Qed.

Lemma findIndex_None_iff a l :
  findIndex a l = None <-> a ∉ articleNumber <$> l.
Proof.
  split; [apply findIndex_None|]. intros Hn.
  destruct (findIndex a l) as [i|] eqn:Hi; [|done]. exfalso.
  destruct (findIndex_Some _ _ _ Hi) as (l1 & p & l2 & -> & _ & Hp & _).
  apply Hn. rewrite fmap_app. apply elem_of_app. right. simpl. rewrite Hp.
  apply elem_of_cons. by left.
Qed.

Lemma alter_middle (f : CartPosition -> CartPosition) l1 p l2 :
  alter f (length l1) (l1 ++ p :: l2) = l1 ++ f p :: l2.
Proof.
  rewrite <- (Nat.add_0_r (length l1)). by rewrite alter_app_r.
Qed.

Lemma linesFor_app a l1 l2 : linesFor a (l1 ++ l2) = linesFor a l1 ++ linesFor a l2.
Proof. apply filter_app. Qed.

Lemma linesFor_cons a x l :
  linesFor a (x :: l) = if decide (articleNumber x = a) then x :: linesFor a l else linesFor a l.
Proof. unfold linesFor. rewrite filter_cons. done. Qed.

Lemma linesFor_Forall a l :
  Forall (fun x => articleNumber x <> a) l -> linesFor a l = [].
Proof.
  induction 1 as [|x l Hx _ IH]; [done|].
  rewrite linesFor_cons. by rewrite decide_False.
Qed.

Lemma linesFor_not_in a l :
  a ∉ articleNumber <$> l -> linesFor a l = [].
Proof.
  intros Hn. apply linesFor_Forall. apply Forall_forall. intros x Hx E.
  apply Hn. apply list_elem_of_fmap. exists x. split; [by rewrite E|]. exact Hx.
Qed.

Lemma addMultipleStep_existing a q0 q ps :
  linesFor a ps = [mkPosition a q0] ->
  linesFor a (addMultipleStep ps (mkPosition a q)) = [mkPosition a (q0 + q)].
Proof.
  intros H. unfold addMultipleStep; simpl.
  destruct (findIndex a ps) as [i|] eqn:Hi.
  - destruct (findIndex_Some _ _ _ Hi) as (l1 & p & l2 & -> & -> & Hp & Hf).
    rewrite alter_middle. rewrite linesFor_app, linesFor_cons in H |- *.
    rewrite (linesFor_Forall _ _ Hf) in H |- *. simpl in H |- *.
    unfold addQuantity at 1; simpl. rewrite Hp, decide_True in H |- * by done.
    injection H as -> ->. done.
  - apply findIndex_None in Hi. rewrite (linesFor_not_in _ _ Hi) in H. discriminate.
Qed.

Lemma addMultipleStep_fresh a q ps :
  a ∉ articleNumber <$> ps ->
  linesFor a (addMultipleStep ps (mkPosition a q)) = [mkPosition a q].
Proof.
  intros Hn. unfold addMultipleStep; simpl.
  apply findIndex_None_iff in Hn as Hi. rewrite Hi.
  rewrite linesFor_app, (linesFor_not_in _ _ Hn). simpl.
  rewrite linesFor_cons, decide_True by done. done.
Qed.

Lemma curCart_insert u c s : curCart u (<[u := c]> s) = c.
Proof. unfold curCart. by rewrite lookup_insert_eq. Qed.

Lemma addToCartSeq_cons u a q qs s :
  addToCartSeq u a (q :: qs) s = addToCartSeq u a qs (snd (addToCart u a q s)).
Proof. reflexivity. Qed.

Lemma addToCartSeq_existing u a q0 qs s :
  linesFor a (positions (curCart u s)) = [mkPosition a q0] ->
  linesFor a (positions (curCart u (addToCartSeq u a qs s))) = [mkPosition a (q0 + sumZ qs)].
Proof.
  revert q0 s. induction qs as [|q qs IH]; intros q0 s H.
  - simpl. by rewrite Z.add_0_r.
  - rewrite addToCartSeq_cons. rewrite addToCart_eq; simpl.
    replace (q0 + (q + sumZ qs)) with ((q0 + q) + sumZ qs) by lia.
    apply IH. rewrite curCart_insert; simpl. by apply addMultipleStep_existing.
Qed.

Lemma position_eta (p : CartPosition) : mkPosition (articleNumber p) (quantity p) = p.
Proof. by destruct p. Qed.

Lemma cart_eta (c : Cart) : mkCart (positions c) = c.
Proof. by destruct c. Qed.

Lemma addMultipleToCart_eq u ps s :
  addMultipleToCart u ps s =
  (mkCart (fold_left addMultipleStep ps (positions (curCart u s))),
   <[u := mkCart (fold_left addMultipleStep ps (positions (curCart u s)))]> s).
Proof. reflexivity. Qed.

Lemma addToCartFold_cons u p ps s :
  addToCartFold u (p :: ps) s
  = addToCartFold u ps (snd (addToCart u (articleNumber p) (quantity p) s)).
Proof. reflexivity. Qed.

Lemma addToCartFold_eq u ps s :
  ps <> [] ->
  addToCartFold u ps s =
  <[u := mkCart (fold_left addMultipleStep ps (positions (curCart u s)))]> s.
Proof.
  revert s. induction ps as [|p ps IH]; intros s Hne; [done|].
  rewrite addToCartFold_cons, addToCart_eq, position_eta. cbn [snd fold_left].
  destruct ps as [|p' ps'].
  - done.
  - rewrite IH by done. rewrite curCart_insert; simpl.
    by rewrite insert_insert_eq.
Qed.

Lemma addToCartFold_nil u s : addToCartFold u [] s = s.
Proof. reflexivity. Qed.

(** ** Claims *)

(** C2: a sequence of [addToCart] calls for one article, starting from a
    cart without that article, leaves exactly one line for the article,
    whose quantity is the sum of the added quantities. *)
Theorem addToCart_additive (s : Store) (u a : string) (qs : list Z) :
  a ∉ articleNumber <$> positions (fst (getCartInternal u s)) ->
  qs <> [] ->
  linesFor a (positions (fst (getCartInternal u (addToCartSeq u a qs s))))
  = [mkPosition a (sumZ qs)].
Proof.
  intros Hn Hne. destruct qs as [|q qs]; [done|].
  change (fst (getCartInternal u ?s')) with (curCart u s') in *.
  rewrite addToCartSeq_cons, addToCart_eq; simpl.
  apply addToCartSeq_existing. rewrite curCart_insert; simpl.
  by apply addMultipleStep_fresh.
Qed.

Lemma addToCart_additive_witness :
  ("095210" ∉ articleNumber <$> positions (fst (getCartInternal "alice" ∅))) /\
  [1; 2] <> [] /\
  linesFor "095210" (positions (fst (getCartInternal "alice"
     (addToCartSeq "alice" "095210" [1; 2] ∅)))) = [mkPosition "095210" 3].
Proof.
  split; [apply not_elem_of_nil|]. split; [discriminate|].
  apply (addToCart_additive ∅ "alice" "095210" [1; 2]);
    [apply not_elem_of_nil | discriminate].
Defined.

Example addToCart_alice_example :
  positions (fst (getCartInternal "alice" (addToCartSeq "alice" "095210" [1; 2] ∅)))
  = [mkPosition "095210" 3].
Proof. vm_compute. reflexivity. Qed.

(** C3 (as stated): [addMultipleToCart] leaves the same store as folding
    [addToCart] over the input.  False for an empty input and a user
    without a stored cart: [addMultipleToCart] still writes an empty cart. *)
Lemma addMultipleToCart_fold_counterexample :
  snd (addMultipleToCart "bob" [] ∅) <> addToCartFold "bob" [] ∅.
Proof.
  intros H. apply (f_equal (lookup "bob")) in H.
  rewrite addToCartFold_nil, lookup_empty in H. simpl in H.
  rewrite lookup_insert_eq in H. discriminate.
Qed.

(** C3 (amended): [addMultipleToCart] leaves the same store as folding
    [addToCart] over the input in order whenever the input is non-empty or
    the user already has a stored cart; in every case both give the same
    cart for every user under [getCartInternal], and the returned cart is
    the one the fold leaves for the user; for an empty input and a user
    without a stored cart, [addMultipleToCart] stores an empty cart for the
    user while the fold leaves the store as it was. *)
Theorem addMultipleToCart_fold (u : string) (ps : list CartPosition) (s : Store) :
  ((ps <> [] \/ is_Some (s !! u)) ->
   snd (addMultipleToCart u ps s) = addToCartFold u ps s) /\
  (forall v, fst (getCartInternal v (snd (addMultipleToCart u ps s)))
             = fst (getCartInternal v (addToCartFold u ps s))) /\
  fst (addMultipleToCart u ps s) = fst (getCartInternal u (addToCartFold u ps s)) /\
  (ps = [] -> s !! u = None ->
   snd (addMultipleToCart u ps s) = <[u := emptyCart]> s /\ addToCartFold u ps s = s).
Proof.
  change (fst (getCartInternal ?v ?s')) with (curCart v s').
  rewrite addMultipleToCart_eq; simpl.
  destruct ps as [|p ps].
  - rewrite addToCartFold_nil; simpl. rewrite cart_eta. split; [|split; [|split]].
    + intros [H|[c Hc]]; [done|]. apply insert_id. unfold curCart. by rewrite Hc.
    + intros v. unfold curCart. destruct (decide (u = v)) as [->|Hne].
      * rewrite lookup_insert_eq. by destruct (s !! v).
      * by rewrite lookup_insert_ne.
    + done.
    + intros _ Hn. unfold curCart. by rewrite Hn.
  - rewrite addToCartFold_eq by done. split; [done|]. split; [done|].
    split; [by rewrite curCart_insert|done].
Qed.

Lemma addMultipleToCart_fold_witness :
  snd (addMultipleToCart "bob" [mkPosition "A" 1; mkPosition "B" 2; mkPosition "A" 3] ∅)
  = addToCartFold "bob" [mkPosition "A" 1; mkPosition "B" 2; mkPosition "A" 3] ∅ /\
  snd (addMultipleToCart "bob" [] ∅) = <[ "bob" := emptyCart ]> ∅.
Proof.
  split.
  - apply (proj1 (addMultipleToCart_fold "bob"
                    [mkPosition "A" 1; mkPosition "B" 2; mkPosition "A" 3] ∅)).
    left. discriminate.
  - apply (proj2 (proj2 (proj2 (addMultipleToCart_fold "bob" [] ∅))) eq_refl (lookup_empty "bob")).
Defined.

Example addMultipleToCart_bob_example :
  let s' := snd (addMultipleToCart "bob" [mkPosition "A" 1; mkPosition "B" 2; mkPosition "A" 3] ∅) in
  positions (fst (getCartInternal "bob" s')) = [mkPosition "A" 4; mkPosition "B" 2] /\
  fst (getCartItemCount "bob" s') = 6.
Proof. vm_compute. split; reflexivity. Qed.

(** ** [getCart] *)


Lemma fetchPositions_eq fetch ps acc :
  fetchPositions fetch ps acc = Ok (acc ++ (enrichLine fetch <$> ps)).
Proof.
  revert acc. induction ps as [|pos ps IH]; intros acc; simpl.
  - by rewrite app_nil_r.
  - unfold enrichLine at 1. destruct (fetch (articleNumber pos)); simpl;
      rewrite IH, <- app_assoc; done.
Qed.

Lemma fold_left_sum {A} (g : A -> Z) (l : list A) (z : Z) :
  fold_left (fun total x => total + g x) l z = z + sumZ (g <$> l).
Proof.
  unfold sumZ. revert z. induction l as [|y l IH]; intros z; simpl; [lia|].
  rewrite IH. change (list_fmap A Z g l) with (g <$> l). lia.
Qed.

Lemma getCart_eq fetch u s :
  getCart fetch u s =
  (Ok (Display.mkCartDisplay (enrichLine fetch <$> positions (curCart u s))
         (sumZ (Display.quantity <$> (enrichLine fetch <$> positions (curCart u s))))), s).
Proof.
  unfold getCart, bindS, getCartInternal, retS. rewrite fetchPositions_eq; simpl.
  by rewrite fold_left_sum.
Qed.

Lemma enrichLine_article fetch pos :
  Display.articleNumber (enrichLine fetch pos) = articleNumber pos.
Proof. unfold enrichLine. by destruct (fetch _). Qed.

Lemma enrichLine_quantity fetch pos :
  Display.quantity (enrichLine fetch pos) = quantity pos.
Proof. unfold enrichLine. by destruct (fetch _). Qed.

(** C1: whatever the catalog answers, [getCart] resolves (it never
    rejects), with one display line per stored line; a line whose catalog
    call rejects becomes the default line (same article number and
    quantity, empty description, price 0, the synthesized image URL), and
    every other line gets the catalog's description and price. *)
Theorem getCart_lookup_failure
    (fetch : string -> Result ArticleDetails) (s : Store) (u : string) :
  exists disp,
    getCart fetch u s = (Ok disp, s) /\
    length (Display.positions disp) = length (positions (fst (getCartInternal u s))) /\
    forall i pos, positions (fst (getCartInternal u s)) !! i = Some pos ->
      (forall e, fetch (articleNumber pos) = Err e ->
         Display.positions disp !! i =
         Some (Display.mkPositionDisplay (articleNumber pos) (quantity pos)
                 "" 0%Q (imageUrlFor (articleNumber pos)))) /\
      (forall d, fetch (articleNumber pos) = Ok d ->
         Display.positions disp !! i =
         Some (Display.mkPositionDisplay (articleNumber pos) (quantity pos)
                 (jsOrEmpty (ad_description d)) (ad_normalPrice d)
                 (imageUrlFor (articleNumber pos)))).
Proof.
  rewrite getCart_eq. eexists. split; [reflexivity|]. simpl.
  change (default emptyCart (s !! u)) with (curCart u s).
  split; [apply length_fmap|].
  intros i pos Hi. rewrite list_lookup_fmap, Hi; simpl.
  unfold enrichLine. split; intros ? ->; done.
Qed.

Lemma getCart_lookup_failure_witness :
  exists disp,
    getCart (fun a => if String.eqb a "X" then Err "HTTP 500"
                      else Ok (mkArticleDetails a "Milk" 2%Q)) "u"
      {["u" := mkCart [mkPosition "X" 2; mkPosition "Y" 1]]}
    = (Ok disp, {["u" := mkCart [mkPosition "X" 2; mkPosition "Y" 1]]}) /\
    Display.positions disp !! 0%nat =
    Some (Display.mkPositionDisplay "X" 2 "" 0%Q (imageUrlFor "X")).
Proof.
  destruct (getCart_lookup_failure
              (fun a => if String.eqb a "X" then Err "HTTP 500"
                        else Ok (mkArticleDetails a "Milk" 2%Q))
              {["u" := mkCart [mkPosition "X" 2; mkPosition "Y" 1]]} "u")
    as (disp & Hget & _ & Hlines).
  exists disp. split; [exact Hget|].
  apply (proj1 (Hlines 0%nat (mkPosition "X" 2) eq_refl) "HTTP 500"). reflexivity.
Defined.

(** C4: for every catalog behaviour, the display lines of [getCart] carry
    the stored lines' article numbers and quantities in the stored order. *)
Theorem getCart_preserves_order
    (fetch : string -> Result ArticleDetails) (s : Store) (u : string) :
  exists disp,
    getCart fetch u s = (Ok disp, s) /\
    Display.articleNumber <$> Display.positions disp
      = articleNumber <$> positions (fst (getCartInternal u s)) /\
    Display.quantity <$> Display.positions disp
      = quantity <$> positions (fst (getCartInternal u s)).
Proof.
  rewrite getCart_eq. eexists. split; [reflexivity|]. simpl.
  change (default emptyCart (s !! u)) with (curCart u s).
  rewrite <- !list_fmap_compose. split; apply list_fmap_ext; intros i x _; simpl.
  - apply enrichLine_article.
  - apply enrichLine_quantity.
Qed.

Example getCart_order_example :
  getCart (fun a => if String.eqb a "A" then Err "timeout"
                    else Ok (mkArticleDetails a "d" 1%Q)) "u"
    {["u" := mkCart [mkPosition "B" 1; mkPosition "A" 2; mkPosition "C" 3]]}
  = (Ok (Display.mkCartDisplay
          [Display.mkPositionDisplay "B" 1 "d" 1%Q (imageUrlFor "B");
           Display.mkPositionDisplay "A" 2 "" 0%Q (imageUrlFor "A");
           Display.mkPositionDisplay "C" 3 "d" 1%Q (imageUrlFor "C")] 6),
     {["u" := mkCart [mkPosition "B" 1; mkPosition "A" 2; mkPosition "C" 3]]}).
Proof. rewrite getCart_eq. reflexivity. Qed.

Lemma sumQuantities_eq ps : sumQuantities ps = sumZ (quantity <$> ps).
Proof. unfold sumQuantities. rewrite (fold_left_sum quantity). lia. Qed.

(** C5: [totalPositions] is the sum of the display lines' quantities
    (default lines included), which is the sum of the stored quantities;
    [getCartItemCount] is the sum of the stored quantities, 0 for an
    unknown user or an empty cart. *)
Theorem getCart_totals
    (fetch : string -> Result ArticleDetails) (s : Store) (u : string) :
  exists disp,
    getCart fetch u s = (Ok disp, s) /\
    Display.totalPositions disp = sumZ (Display.quantity <$> Display.positions disp) /\
    Display.totalPositions disp = sumZ (quantity <$> positions (fst (getCartInternal u s))) /\
    fst (getCartItemCount u s) = sumZ (quantity <$> positions (fst (getCartInternal u s))) /\
    ((s !! u = None \/ positions (fst (getCartInternal u s)) = []) ->
     fst (getCartItemCount u s) = 0).
Proof.
  rewrite getCart_eq. eexists. split; [reflexivity|]. simpl.
  change (default emptyCart (s !! u)) with (curCart u s).
  assert (Hq : Display.quantity <$> (enrichLine fetch <$> positions (curCart u s))
               = quantity <$> positions (curCart u s)).
  { rewrite <- list_fmap_compose. apply list_fmap_ext; intros i x _; simpl.
    apply enrichLine_quantity. }
  unfold getCartItemCount, bindS, getCartInternal, retS; simpl.
  change (default emptyCart (s !! u)) with (curCart u s).
  rewrite sumQuantities_eq, Hq. split; [done|]. split; [done|]. split; [done|].
  intros [Hn|He].
  - unfold curCart. by rewrite Hn.
  - by rewrite He.
Qed.

Lemma getCart_totals_witness :
  exists disp,
    getCart (fun _ => Err "offline") "nobody" ∅ = (Ok disp, ∅) /\
    fst (getCartItemCount "nobody" ∅) = 0.
Proof.
  destruct (getCart_totals (fun _ => Err "offline") ∅ "nobody")
    as (disp & Hget & _ & _ & _ & Hzero).
  exists disp. split; [exact Hget|]. apply Hzero. left. reflexivity.
Defined.

(** ** Uniqueness of article numbers *)

Lemma storeOk_cur u s : storeOk s -> uniqueArticles (curCart u s).
Proof.
  intros Hs. unfold curCart. destruct (s !! u) as [c|] eqn:Hc; simpl.
  - exact (Hs u c Hc).
  - constructor.
Qed.

Lemma storeOk_insert u c s : storeOk s -> uniqueArticles c -> storeOk (<[u := c]> s).
Proof. intros Hs Hc. by apply map_Forall_insert_2. Qed.

Lemma fmap_alter_article (f : CartPosition -> CartPosition) (i : nat) (l : list CartPosition) :
  (forall p, articleNumber (f p) = articleNumber p) ->
  articleNumber <$> alter f i l = articleNumber <$> l.
Proof.
  intros Hf. revert i. induction l as [|x l IH]; intros [|i]; simpl; try done.
  - by rewrite Hf.
  - f_equal. apply IH.
Qed.

Lemma upsert_unique (f : CartPosition -> CartPosition) a q (l : list CartPosition) :
  (forall p, articleNumber (f p) = articleNumber p) ->
  NoDup (articleNumber <$> l) ->
  NoDup (articleNumber <$>
    match findIndex a l with
    | Some i => alter f i l
    | None => l ++ [mkPosition a q]
    end).
Proof.
  intros Hf Hl. destruct (findIndex a l) as [i|] eqn:Hi.
  - by rewrite fmap_alter_article.
  - apply findIndex_None in Hi. rewrite fmap_app; simpl.
    apply NoDup_app. split; [done|]. split.
    + intros x Hx Hx'. apply list_elem_of_singleton in Hx'. subst. done.
    + apply NoDup_singleton.
Qed.

Lemma addMultipleStep_unique ps p :
  NoDup (articleNumber <$> ps) -> NoDup (articleNumber <$> addMultipleStep ps p).
Proof.
  intros H. unfold addMultipleStep. by apply upsert_unique.
Qed.

Lemma fold_addMultipleStep_unique ps0 ps :
  NoDup (articleNumber <$> ps) ->
  NoDup (articleNumber <$> fold_left addMultipleStep ps0 ps).
Proof.
  revert ps. induction ps0 as [|p ps0 IH]; intros ps H; simpl; [done|].
  apply IH. by apply addMultipleStep_unique.
Qed.

Lemma filter_article_sub (b : CartPosition -> bool) (l : list CartPosition) y :
  y ∈ articleNumber <$> List.filter b l -> y ∈ articleNumber <$> l.
Proof.
  intros Hy. apply list_elem_of_fmap in Hy as (x & -> & Hx).
  apply list_elem_of_fmap. exists x. split; [done|].
  apply list_elem_of_In in Hx. apply list_elem_of_In.
  by apply filter_In in Hx as [? _].
Qed.

Lemma filter_unique (b : CartPosition -> bool) (l : list CartPosition) :
  NoDup (articleNumber <$> l) -> NoDup (articleNumber <$> List.filter b l).
Proof.
  induction l as [|x l IH]; simpl; intros H; [constructor|].
  apply NoDup_cons in H as [Hx Hl].
  destruct (b x); simpl; [|by apply IH].
  apply NoDup_cons. split; [|by apply IH].
  intros Hin. apply Hx. by apply (filter_article_sub b).
Qed.

Lemma updateCartPosition_eq u a q s :
  let ps' := match findIndex a (positions (curCart u s)) with
             | Some i => alter (setQuantity q) i (positions (curCart u s))
             | None => positions (curCart u s) ++ [mkPosition a q]
             end in
  updateCartPosition u a q s = (mkCart ps', <[u := mkCart ps']> s).
Proof.
  unfold updateCartPosition, bindS, getCartInternal, setS, retS, curCart; simpl.
  by destruct (findIndex a _).
Qed.

(** C6: [addToCart], [addMultipleToCart], [removeFromCart],
    [updateCartPosition] and [clearCart] keep every cart of the store free
    of two lines with the same article number. *)
Theorem operations_preserve_unique (s : Store) (u a : string) (q : Z)
    (ps : list CartPosition) :
  storeOk s ->
  storeOk (snd (addToCart u a q s)) /\
  storeOk (snd (addMultipleToCart u ps s)) /\
  storeOk (snd (removeFromCart u a s)) /\
  storeOk (snd (updateCartPosition u a q s)) /\
  storeOk (snd (clearCart u s)).
Proof.
  intros Hs. pose proof (storeOk_cur u s Hs) as Hc. unfold uniqueArticles in Hc.
  split; [|split; [|split; [|split]]].
  - rewrite addToCart_eq; simpl. apply storeOk_insert; [done|].
    by apply addMultipleStep_unique.
  - rewrite addMultipleToCart_eq; simpl. apply storeOk_insert; [done|].
    by apply fold_addMultipleStep_unique.
  - unfold removeFromCart, bindS, getCartInternal, setS, retS; simpl.
    apply storeOk_insert; [done|]. by apply filter_unique.
  - rewrite updateCartPosition_eq; simpl. apply storeOk_insert; [done|].
    by apply upsert_unique.
  - apply storeOk_insert; [done|]. constructor.
Qed.

Lemma operations_preserve_unique_witness :
  storeOk {["u" := mkCart [mkPosition "A" 1]]} /\
  storeOk (snd (addToCart "u" "A" 2 {["u" := mkCart [mkPosition "A" 1]]})).
Proof.
  assert (H : storeOk {["u" := mkCart [mkPosition "A" 1]]}).
  { apply map_Forall_singleton. unfold uniqueArticles. simpl.
    apply NoDup_singleton. }
  split; [exact H|].
  apply (operations_preserve_unique {["u" := mkCart [mkPosition "A" 1]]} "u" "A" 2 [] H).
Defined.

(** C7: on a cart without duplicate article numbers, [updateCartPosition]
    leaves exactly one line for the article, with exactly the given
    quantity (the old quantity is replaced, not added to); when the article
    was absent, the line is appended to the cart. *)
Theorem updateCartPosition_sets (s : Store) (u a : string) (q : Z) :
  uniqueArticles (fst (getCartInternal u s)) ->
  linesFor a (positions (fst (getCartInternal u (snd (updateCartPosition u a q s)))))
    = [mkPosition a q] /\
  (a ∉ articleNumber <$> positions (fst (getCartInternal u s)) ->
   positions (fst (getCartInternal u (snd (updateCartPosition u a q s))))
     = positions (fst (getCartInternal u s)) ++ [mkPosition a q]).
Proof.
  change (fst (getCartInternal ?v ?s')) with (curCart v s').
  intros Hu. rewrite updateCartPosition_eq; simpl. rewrite curCart_insert; simpl.
  unfold uniqueArticles in Hu.
  destruct (findIndex a (positions (curCart u s))) as [i|] eqn:Hi.
  - split.
    + destruct (findIndex_Some _ _ _ Hi) as (l1 & p & l2 & Hl & -> & Hp & Hf).
      rewrite Hl in Hu |- *. rewrite alter_middle.
      rewrite fmap_app in Hu. apply NoDup_app in Hu as (_ & _ & Hu).
      simpl in Hu. apply NoDup_cons in Hu as [Hn _]. rewrite Hp in Hn.
      rewrite linesFor_app, linesFor_cons, (linesFor_Forall _ _ Hf),
        (linesFor_not_in _ _ Hn); simpl.
      unfold setQuantity. rewrite Hp, decide_True by done. done.
    + intros Hn. apply findIndex_None_iff in Hn. congruence.
  - split; [|done].
    apply findIndex_None in Hi.
    rewrite linesFor_app, (linesFor_not_in _ _ Hi); simpl.
    rewrite linesFor_cons, decide_True by done. done.
Qed.

Lemma updateCartPosition_sets_witness :
  uniqueArticles (fst (getCartInternal "u" (snd (addToCart "u" "A" 2 ∅)))) /\
  linesFor "A" (positions (fst (getCartInternal "u"
    (snd (updateCartPosition "u" "A" 5 (snd (addToCart "u" "A" 2 ∅)))))))
    = [mkPosition "A" 5].
Proof.
  assert (H : uniqueArticles (fst (getCartInternal "u" (snd (addToCart "u" "A" 2 ∅))))).
  { unfold uniqueArticles. vm_compute. apply NoDup_singleton. }
  split; [exact H|].
  apply (updateCartPosition_sets (snd (addToCart "u" "A" 2 ∅)) "u" "A" 5 H).
Defined.

(** ** Order submission *)


Lemma submitAll_stream {Seed} (randomUUID : Seed -> string * Seed)
    (us : list string) (s : Store) (seed : Seed) (m : nat) :
  fst (submitAll randomUUID us (s, seed)) ++
    uuidStream randomUUID (snd (snd (submitAll randomUUID us (s, seed)))) m
  = uuidStream randomUUID seed (length us + m).
Proof.
  revert s seed. induction us as [|u us IH]; intros s seed; simpl; [done|].
  unfold submitCart. destruct (randomUUID seed) as [id seed'] eqn:R. simpl.
  specialize (IH (<[u := emptyCart]> s) seed').
  destruct (submitAll randomUUID us (<[u:=emptyCart]> s, seed')) as [ids st''].
  simpl in *. by rewrite IH.
Qed.

(** C8: [submitCart] returns the value drawn from [randomUUID], which,
    for a source that never repeats itself, differs from every order id
    issued by earlier submissions; afterwards the user's cart is empty, the
    item count is 0, and the user keeps an entry in the store. *)
Theorem submitCart_fresh_and_clears (Seed : Type) (randomUUID : Seed -> string * Seed)
    (Hunique : forall seed n, NoDup (uuidStream randomUUID seed n))
    (earlier : list string) (u : string) (s : Store) (seed : Seed) :
  let (ids, st1) := submitAll randomUUID earlier (s, seed) in
  let (orderId, st2) := submitCart randomUUID u st1 in
  (orderId ∉ ids) /\
  positions (fst (getCartInternal u (fst st2))) = [] /\
  fst (getCartItemCount u (fst st2)) = 0 /\
  is_Some (fst st2 !! u).
Proof.
  pose proof (submitAll_stream randomUUID earlier s seed 1) as Hs.
  pose proof (Hunique seed (length earlier + 1)%nat) as Hn.
  destruct (submitAll randomUUID earlier (s, seed)) as [ids [s1 seed1]]. simpl in Hs.
  unfold submitCart. destruct (randomUUID seed1) as [orderId seed2] eqn:R.
  simpl.
  rewrite <- Hs in Hn. apply NoDup_app in Hn as (_ & Hdis & _).
  unfold getCartItemCount, bindS, getCartInternal, retS; simpl.
  rewrite lookup_insert_eq. split; [|split; [done|split; [done|by eexists]]].
  intros Hin. apply (Hdis orderId Hin). by apply list_elem_of_singleton.
Qed.


Lemma counterUUID_stream seed n :
  uuidStream counterUUID seed n = pretty <$> seq seed n.
Proof.
  revert seed. induction n as [|n IH]; intros seed; simpl; [done|].
  by rewrite IH.
Qed.

Lemma submitCart_fresh_and_clears_witness :
  (forall seed n, NoDup (uuidStream counterUUID seed n)) /\
  (let (ids, st1) := submitAll counterUUID ["alice"; "bob"] (∅, 0%nat) in
   let (orderId, st2) := submitCart counterUUID "alice" st1 in
   (orderId ∉ ids) /\
   positions (fst (getCartInternal "alice" (fst st2))) = [] /\
   fst (getCartItemCount "alice" (fst st2)) = 0 /\
   is_Some (fst st2 !! "alice")).
Proof.
  assert (H : forall seed n, NoDup (uuidStream counterUUID seed n)).
  { intros seed n. rewrite counterUUID_stream. apply NoDup_fmap_2; [apply _|].
    apply NoDup_seq. }
  split; [exact H|].
  exact (submitCart_fresh_and_clears nat counterUUID H ["alice"; "bob"] "alice" ∅ 0%nat).
Defined.

(** ** Reads and write-backs for a user without a stored cart *)

(** C9: for a user without a stored cart, [getCartInternal] returns a
    fresh empty cart and [getCart] an empty display with total 0, and both
    leave the store exactly as it was (no entry is created). *)
Theorem get_unknown_user (s : Store) (u : string) :
  s !! u = None ->
  getCartInternal u s = (emptyCart, s) /\
  (forall fetch : string -> Result ArticleDetails,
     getCart fetch u s = (Ok (Display.mkCartDisplay [] 0), s)) /\
  (snd (getCartInternal u s)) !! u = None.
Proof.
  intros Hn. unfold getCartInternal. rewrite Hn. split; [done|]. split; [|done].
  intros fetch. rewrite getCart_eq. unfold curCart. by rewrite Hn.
Qed.

Lemma get_unknown_user_witness :
  getCartInternal "carol" {["alice" := mkCart [mkPosition "A" 1]]}
  = (emptyCart, {["alice" := mkCart [mkPosition "A" 1]]}).
Proof.
  apply (get_unknown_user {["alice" := mkCart [mkPosition "A" 1]]} "carol").
  reflexivity.
Defined.

(** C10: [removeFromCart] writes the cart back unconditionally: for a user
    without a stored cart, removing any article (a no-op on the contents)
    creates an entry holding an empty cart. *)
Theorem removeFromCart_creates_entry (s : Store) (u a : string) :
  s !! u = None ->
  fst (removeFromCart u a s) = emptyCart /\
  snd (removeFromCart u a s) !! u = Some emptyCart.
Proof.
  intros Hn. unfold removeFromCart, bindS, getCartInternal, setS, retS; simpl.
  rewrite Hn, lookup_insert_eq. done.
Qed.

Lemma removeFromCart_creates_entry_witness :
  snd (removeFromCart "dave" "095210" ∅) !! "dave" = Some emptyCart.
Proof.
  apply (removeFromCart_creates_entry ∅ "dave" "095210"). reflexivity.
Defined.

(** ** [escapeHtml] *)

Lemma list_ascii_of_string_append (s1 s2 : string) :
  list_ascii_of_string (s1 ++ s2)%string = list_ascii_of_string s1 ++ list_ascii_of_string s2.
Proof. induction s1 as [|c s1 IH]; simpl; [done|]. by rewrite IH. Qed.

Ltac entity_chars H :=
  repeat (apply elem_of_cons in H as [->|H]; [unfold dquote; repeat split; discriminate|]);
  by apply elem_of_nil in H.

Lemma escapeChar_safe (c0 c : ascii) :
  c ∈ list_ascii_of_string (escapeChar c0) ->
  c <> "<"%char /\ c <> ">"%char /\ c <> dquote /\ c <> "'"%char.
Proof.
  unfold escapeChar. intros H.
  destruct (Ascii.eqb_spec c0 "&"); [simpl in H; entity_chars H|].
  destruct (Ascii.eqb_spec c0 "<"); [simpl in H; entity_chars H|].
  destruct (Ascii.eqb_spec c0 ">"); [simpl in H; entity_chars H|].
  destruct (Ascii.eqb_spec c0 dquote); [simpl in H; entity_chars H|].
  destruct (Ascii.eqb_spec c0 "'"); [simpl in H; entity_chars H|].
  simpl in H. apply list_elem_of_singleton in H. subst. auto.
Qed.

(** [escapeHtml] output never contains a less-than, greater-than, double
    quote or apostrophe character. *)
Theorem escapeHtml_no_markup (text : string) (c : ascii) :
  c ∈ list_ascii_of_string (escapeHtml text) ->
  c <> "<"%char /\ c <> ">"%char /\ c <> dquote /\ c <> "'"%char.
Proof.
  induction text as [|c0 text IH]; simpl; [by intros ?%elem_of_nil|].
  rewrite list_ascii_of_string_append, elem_of_app. intros [H|H].
  - by apply (escapeChar_safe c0).
  - by apply IH.
Qed.

Lemma escapeHtml_no_markup_witness :
  "<"%char ∈ list_ascii_of_string "<b>" /\
  ("<"%char ∉ list_ascii_of_string (escapeHtml "<b>")).
Proof.
  split; [left|].
  intros H. destruct (escapeHtml_no_markup "<b>" "<" H) as [Hne _]. by apply Hne.
Defined.

Lemma string_append_empty (s : string) : String.append EmptyString s = s.
Proof. reflexivity. Qed.

Lemma unescapeHtml_plain (c : ascii) (r : string) :
  c <> "&"%char -> unescapeHtml (String c r) = String c (unescapeHtml r).
Proof.
  intros Hc. destruct c as [[] [] [] [] [] [] [] []]; try reflexivity.
  exfalso. by apply Hc.
Qed.

(** Decoding the five entities undoes [escapeHtml]; so two different texts
    are never escaped to the same HTML. *)
Theorem escapeHtml_roundtrip (text : string) :
  unescapeHtml (escapeHtml text) = text /\
  (forall text', escapeHtml text' = escapeHtml text -> text' = text).
Proof.
  assert (Hrt : forall t, unescapeHtml (escapeHtml t) = t).
  { induction t as [|c t IH]; [done|]. simpl. unfold escapeChar.
    destruct (Ascii.eqb_spec c "&") as [->|H1]; [simpl; by rewrite string_append_empty, IH|].
    destruct (Ascii.eqb_spec c "<") as [->|H2]; [simpl; by rewrite string_append_empty, IH|].
    destruct (Ascii.eqb_spec c ">") as [->|H3]; [simpl; by rewrite string_append_empty, IH|].
    destruct (Ascii.eqb_spec c dquote) as [->|H4]; [simpl; by rewrite string_append_empty, IH|].
    destruct (Ascii.eqb_spec c "'") as [->|H5]; [simpl; by rewrite string_append_empty, IH|].
    change (String.append (String c EmptyString) (escapeHtml t)) with (String c (escapeHtml t)).
    rewrite unescapeHtml_plain by done. by rewrite IH. }
  split; [apply Hrt|]. intros t' E.
  rewrite <- (Hrt t'), <- (Hrt text). by rewrite E.
Qed.

(** A text without any of the five special characters is left unchanged. *)
Theorem escapeHtml_plain_text (text : string) :
  (forall c, c ∈ list_ascii_of_string text -> ~ htmlSpecial c) ->
  escapeHtml text = text.
Proof.
  induction text as [|c text IH]; intros H; [done|]. simpl.
  assert (Hc : ~ htmlSpecial c) by (apply H; left).
  unfold htmlSpecial in Hc. unfold escapeChar.
  destruct (Ascii.eqb_spec c "&"); [tauto|].
  destruct (Ascii.eqb_spec c "<"); [tauto|].
  destruct (Ascii.eqb_spec c ">"); [tauto|].
  destruct (Ascii.eqb_spec c dquote); [tauto|].
  destruct (Ascii.eqb_spec c "'"); [tauto|].
  simpl. rewrite IH; [done|]. intros c' Hc'. apply H. by right.
Qed.

Lemma escapeHtml_plain_text_witness : escapeHtml "095210 Milch 1l" = "095210 Milch 1l".
Proof.
  apply escapeHtml_plain_text. intros c Hc.
  unfold htmlSpecial, dquote.
  repeat (apply elem_of_cons in Hc as [->|Hc];
          [intros [?|[?|[?|[?|?]]]]; discriminate|]).
  by apply elem_of_nil in Hc.
Defined.

(** ** The catalog call over HTTP *)

(** [fetchTransgourmetArticleDetails] resolves exactly when the GET on
    the article-details URL answers with a 2xx status and a truthy JSON
    value, and it resolves with that value's [articleNumber],
    [description] and [normalPrice] properties, whatever they are. *)
Theorem fetchTransgourmetArticleDetails_resolves
    (httpGet : string -> HttpResponse) (a : string) (d : FetchedDetails) :
  fetchTransgourmetArticleDetails httpGet a = Ok d <->
  exists status statusText v,
    httpGet (articleDetailsUrl a) = HttpReply status statusText (Parsed v) /\
    200 <= status <= 299 /\ jsTruthy v = true /\
    d = mkFetchedDetails (jsProperty v "articleNumber") (jsProperty v "description")
                         (jsProperty v "normalPrice").
Proof.
  unfold fetchTransgourmetArticleDetails, responseOk. split.
  - destruct (httpGet (articleDetailsUrl a)) as [m|status txt body]; [discriminate|].
    destruct (200 <=? status) eqn:H1, (status <=? 299) eqn:H2; simpl; try discriminate.
    apply Z.leb_le in H1, H2.
    destruct body as [m|v]; [discriminate|].
    destruct (jsTruthy v) eqn:Hv; simpl; [|discriminate]. intros [= <-].
    exists status, txt, v. repeat split; done || lia.
  - intros (status & txt & v & -> & Hs & Hv & ->).
    replace ((200 <=? status) && (status <=? 299)) with true
      by (symmetry; apply andb_true_iff; split; apply Z.leb_le; lia).
    simpl. by rewrite Hv.
Qed.

(** On a 2xx reply the body is not validated: a falsy value rejects with
    [Article data not found in response], and any truthy value that is not
    an object (a number, a non-empty string, [true], an array) resolves
    with all three fields [undefined]. *)
Theorem fetchTransgourmetArticleDetails_unvalidated
    (httpGet : string -> HttpResponse) (a : string) (status : Z) (statusText : string)
    (v : JsonValue) :
  httpGet (articleDetailsUrl a) = HttpReply status statusText (Parsed v) ->
  200 <= status <= 299 ->
  (jsTruthy v = false ->
   fetchTransgourmetArticleDetails httpGet a = Err "Article data not found in response") /\
  ((forall members, v <> JObject members) -> jsTruthy v = true ->
   fetchTransgourmetArticleDetails httpGet a = Ok (mkFetchedDetails None None None)).
Proof.
  intros Hget Hs. unfold fetchTransgourmetArticleDetails. rewrite Hget. unfold responseOk.
  replace ((200 <=? status) && (status <=? 299)) with true
    by (symmetry; apply andb_true_iff; split; apply Z.leb_le; lia).
  simpl. split.
  - intros Hv. by rewrite Hv.
  - intros Hobj Hv. rewrite Hv. simpl.
    destruct v as [| | | | |members]; [done..|]. by destruct (Hobj members).
Qed.

Lemma fetchTransgourmetArticleDetails_unvalidated_witness :
  fetchTransgourmetArticleDetails (fun _ => HttpReply 200 "OK" (Parsed (JNumber 5))) "095210" =
  Ok (mkFetchedDetails None None None).
Proof.
  apply (proj2 (fetchTransgourmetArticleDetails_unvalidated
                  (fun _ => HttpReply 200 "OK" (Parsed (JNumber 5))) "095210" 200 "OK"
                  (JNumber 5) eq_refl ltac:(lia))).
  - intros members. discriminate.
  - reflexivity.
Defined.

(** a reply outside 200..299 rejects with a message naming the URL,
    the status and the status text, whatever the body. *)
Theorem fetchTransgourmetArticleDetails_status_error
    (httpGet : string -> HttpResponse) (a : string) (status : Z) (statusText : string)
    (body : JsonBody) :
  httpGet (articleDetailsUrl a) = HttpReply status statusText body ->
  ~ (200 <= status <= 299) ->
  fetchTransgourmetArticleDetails httpGet a =
  Err ("API request failed: " ++ articleDetailsUrl a ++ " - " ++ pretty status ++ " " ++
       statusText)%string.
Proof.
  intros Hget Hs. unfold fetchTransgourmetArticleDetails. rewrite Hget.
  unfold responseOk.
  replace ((200 <=? status) && (status <=? 299)) with false; [done|].
  symmetry. apply andb_false_iff.
  destruct (Z.leb_spec 200 status); [|by left].
  destruct (Z.leb_spec status 299); [lia|by right].
Qed.

Lemma fetchTransgourmetArticleDetails_status_error_witness :
  fetchTransgourmetArticleDetails (fun _ => HttpReply 404 "Not Found" (Parsed JNull)) "095210" =
  Err ("API request failed: " ++ articleDetailsUrl "095210" ++ " - " ++ pretty 404 ++ " " ++
       "Not Found")%string.
Proof.
  apply (fetchTransgourmetArticleDetails_status_error _ "095210" 404 "Not Found" (Parsed JNull));
    [reflexivity|lia].
Defined.

(** ** Tool handlers *)

Lemma find_skip (a : string) (l1 l : list CartPosition) :
  Forall (fun x => articleNumber x <> a) l1 ->
  List.find (fun pos => String.eqb (articleNumber pos) a) (l1 ++ l) =
  List.find (fun pos => String.eqb (articleNumber pos) a) l.
Proof.
  induction 1 as [|x l1 Hx _ IH]; [done|]. simpl.
  destruct (String.eqb_spec (articleNumber x) a); [contradiction|]. exact IH.
Qed.

Lemma not_in_Forall (a : string) (l : list CartPosition) :
  a ∉ articleNumber <$> l -> Forall (fun x => articleNumber x <> a) l.
Proof.
  intros Hn. apply Forall_forall. intros x Hx E. apply Hn.
  apply list_elem_of_fmap. exists x. split; [done|]. exact Hx.
Qed.

Lemma find_addMultipleStep (a : string) (q : Z) (ps : list CartPosition) :
  List.find (fun pos => String.eqb (articleNumber pos) a) (addMultipleStep ps (mkPosition a q)) =
  Some (mkPosition a
    (match List.find (fun pos => String.eqb (articleNumber pos) a) ps with
     | Some p => quantity p | None => 0 end + q)).
Proof.
  unfold addMultipleStep; simpl.
  destruct (findIndex a ps) as [i|] eqn:Hi.
  - destruct (findIndex_Some _ _ _ Hi) as (l1 & p & l2 & -> & -> & Hp & Hf).
    rewrite alter_middle, !find_skip by done. simpl.
    rewrite Hp, String.eqb_refl. unfold addQuantity. by rewrite Hp.
  - apply findIndex_None, not_in_Forall in Hi.
    rewrite find_skip by done. rewrite <- (app_nil_r ps), find_skip by done. simpl.
    by rewrite String.eqb_refl.
Qed.

(** [add_article_to_transgourmet_cart] with a blank article number or a
    blank user name answers with the matching error text and leaves the
    store unchanged. *)
Theorem addArticleHandler_blank (argArticleNumber argUsername : option string)
    (argQuantity : option Z) (s : Store) :
  trimmedArg argArticleNumber = "" \/ trimmedArg argUsername = "" ->
  addArticleHandler argArticleNumber argUsername argQuantity s =
  (if String.eqb (trimmedArg argArticleNumber) "" then "Missing article number."
   else "Missing username.", s).
Proof.
  intros H. unfold addArticleHandler; cbv zeta.
  destruct (String.eqb_spec (trimmedArg argArticleNumber) "") as [Ha|Ha]; [done|].
  destruct H as [H|H]; [contradiction|]. by rewrite H.
Qed.

Lemma addArticleHandler_blank_witness :
  addArticleHandler (Some "095210") (Some " 	 ") None ∅ = ("Missing username.", ∅).
Proof.
  apply (addArticleHandler_blank (Some "095210") (Some " 	 ") None ∅).
  right. reflexivity.
Defined.

(** [add_article_to_transgourmet_cart] with a non-blank trimmed article
    number and user name performs [addToCart] on the trimmed values with
    quantity 1 when none is given, and reports as current quantity the
    old quantity of the first line for the article (0 when there was
    none) plus the added quantity: the branch without a current quantity
    is never taken. *)
Theorem addArticleHandler_adds (argArticleNumber argUsername : option string)
    (argQuantity : option Z) (s : Store) :
  trimmedArg argArticleNumber <> "" -> trimmedArg argUsername <> "" ->
  let a := trimmedArg argArticleNumber in
  let u := trimmedArg argUsername in
  let q := default 1 argQuantity in
  addArticleHandler argArticleNumber argUsername argQuantity s =
  (("Added " ++ showZ q ++ " of article " ++ a ++ " to cart for user " ++ quoted u ++
    ". Current quantity: " ++
    showZ (match List.find (fun pos => String.eqb (articleNumber pos) a) (positions (curCart u s)) with
           | Some p => quantity p | None => 0 end + q) ++ ".")%string,
   snd (addToCart u a q s)).
Proof.
  intros Ha Hu. cbv zeta. unfold addArticleHandler; cbv zeta.
  destruct (String.eqb_spec (trimmedArg argArticleNumber) "") as [E|_]; [contradiction|].
  destruct (String.eqb_spec (trimmedArg argUsername) "") as [E|_]; [contradiction|].
  unfold bindS at 1. rewrite addToCart_eq. cbn [fst snd positions].
  by rewrite find_addMultipleStep.
Qed.

Lemma addArticleHandler_adds_witness :
  addArticleHandler (Some " 095210 ") (Some "alice") (Some 2)
    (<[ "alice" := mkCart [mkPosition "095210" 3] ]> ∅) =
  (("Added " ++ showZ 2 ++ " of article " ++ "095210" ++ " to cart for user " ++
    quoted "alice" ++ ". Current quantity: " ++ showZ 5 ++ ".")%string,
   <[ "alice" := mkCart [mkPosition "095210" 5] ]> ∅).
Proof.
  refine (eq_trans (addArticleHandler_adds (Some " 095210 ") (Some "alice") (Some 2)
            (<[ "alice" := mkCart [mkPosition "095210" 3] ]> ∅) _ _) _);
    [vm_compute; discriminate|vm_compute; discriminate|].
  vm_compute. reflexivity.
Defined.

Lemma normalizePositions_nil_inv (ps : list (option PositionArg)) :
  length ps = 0%nat -> normalizePositions ps = [].
Proof. destruct ps; [done|discriminate]. Qed.

(** [add_multiple_articles_to_transgourmet_cart] with a blank user name, or
    without any position whose trimmed article number is non-empty (a
    missing, empty or all-invalid [positions] array), leaves the store
    unchanged. *)
Theorem addMultipleArticlesHandler_rejects (argUsername : option string)
    (argPositions : option (list (option PositionArg))) (s : Store) :
  trimmedArg argUsername = "" \/ normalizePositions (default [] argPositions) = [] ->
  snd (addMultipleArticlesHandler argUsername argPositions s) = s.
Proof.
  intros H. unfold addMultipleArticlesHandler; cbv zeta.
  destruct (String.eqb_spec (trimmedArg argUsername) "") as [_|Hu]; [done|].
  destruct H as [H|H]; [contradiction|].
  destruct (Nat.eqb (length (default [] argPositions)) 0); [done|].
  by rewrite H.
Qed.

Lemma addMultipleArticlesHandler_rejects_witness :
  snd (addMultipleArticlesHandler (Some "bob")
         (Some [None; Some (mkPositionArg (Some "  ") (Some 3))]) ∅) = ∅.
Proof.
  apply addMultipleArticlesHandler_rejects. right. reflexivity.
Defined.

(** Otherwise the handler performs [addMultipleToCart] for the trimmed user
    name on the normalized positions, and its message reports the number
    of lines the user's cart has afterwards. *)
Theorem addMultipleArticlesHandler_adds (argUsername : option string)
    (argPositions : option (list (option PositionArg))) (s : Store) :
  trimmedArg argUsername <> "" -> normalizePositions (default [] argPositions) <> [] ->
  let u := trimmedArg argUsername in
  let ps := normalizePositions (default [] argPositions) in
  let s' := snd (addMultipleToCart u ps s) in
  addMultipleArticlesHandler argUsername argPositions s =
  (("Added " ++ showZ (Z.of_nat (length ps)) ++ " position(s) to cart for user " ++
    quoted u ++ ": " ++
    String.concat ", " (map (fun pos => showZ (quantity pos) ++ "x " ++ articleNumber pos)%string ps) ++
    ". Cart now contains " ++ showZ (Z.of_nat (length (positions (curCart u s')))) ++
    " position(s).")%string, s').
Proof.
  intros Hu Hps. cbv zeta. unfold addMultipleArticlesHandler; cbv zeta.
  destruct (String.eqb_spec (trimmedArg argUsername) "") as [E|_]; [contradiction|].
  destruct (Nat.eqb_spec (length (default [] argPositions)) 0) as [E|_].
  { by apply normalizePositions_nil_inv in E. }
  destruct (Nat.eqb_spec (length (normalizePositions (default [] argPositions))) 0) as [E|_].
  { by apply nil_length_inv in E. }
  unfold bindS at 1. rewrite addMultipleToCart_eq. cbn [fst snd].
  by rewrite curCart_insert.
Qed.

Lemma addMultipleArticlesHandler_adds_witness :
  snd (addMultipleArticlesHandler (Some " bob ")
         (Some [Some (mkPositionArg (Some "095210") None); None;
                Some (mkPositionArg (Some " 022600") (Some 2))]) ∅) =
  <[ "bob" := mkCart [mkPosition "095210" 1; mkPosition "022600" 2] ]> ∅.
Proof.
  rewrite (addMultipleArticlesHandler_adds (Some " bob ")
         (Some [Some (mkPositionArg (Some "095210") None); None;
                Some (mkPositionArg (Some " 022600") (Some 2))]) ∅);
    [|vm_compute; discriminate|vm_compute; discriminate].
  vm_compute. reflexivity.
Defined.

Lemma noBlank_cur (u : string) (s : Store) :
  noBlankArticles s -> Forall (fun p => articleNumber p <> "") (positions (curCart u s)).
Proof.
  intros Hs. unfold curCart. destruct (s !! u) as [c|] eqn:Hc; simpl.
  - exact (Hs u c Hc).
  - constructor.
Qed.

Lemma addMultipleStep_noBlank (ps : list CartPosition) (p : CartPosition) :
  Forall (fun x => articleNumber x <> "") ps -> articleNumber p <> "" ->
  Forall (fun x => articleNumber x <> "") (addMultipleStep ps p).
Proof.
  intros Hps Hp. unfold addMultipleStep.
  destruct (findIndex (articleNumber p) ps) as [i|] eqn:Hi.
  - destruct (findIndex_Some _ _ _ Hi) as (l1 & x & l2 & -> & -> & Hx & _).
    rewrite alter_middle. apply Forall_app in Hps as [H1 H2].
    apply Forall_cons in H2 as [H2 H3].
    apply Forall_app. split; [done|]. constructor; [done|done].
  - apply Forall_app. split; [done|]. by constructor.
Qed.

Lemma fold_addMultipleStep_noBlank (ps0 ps : list CartPosition) :
  Forall (fun x => articleNumber x <> "") ps -> Forall (fun x => articleNumber x <> "") ps0 ->
  Forall (fun x => articleNumber x <> "") (fold_left addMultipleStep ps0 ps).
Proof.
  revert ps. induction ps0 as [|p ps0 IH]; intros ps Hps H0; simpl; [done|].
  apply Forall_cons in H0 as [Hp H0]. apply IH; [|done].
  by apply addMultipleStep_noBlank.
Qed.

Lemma normalizePositions_noBlank (ps : list (option PositionArg)) :
  Forall (fun x => articleNumber x <> "") (normalizePositions ps).
Proof.
  apply Forall_forall. intros x Hx. unfold normalizePositions in Hx.
  apply list_elem_of_In, filter_In in Hx as [_ Hlen]. intros E. rewrite E in Hlen. discriminate.
Qed.

(** The two adding handlers never store a line with an empty article
    number: the trimmed article numbers are checked (single add) or
    filtered (multiple add) before the store is touched. *)
Theorem handlers_never_store_blank_articles (s : Store)
    (argArticleNumber argUsername : option string) (argQuantity : option Z)
    (argPositions : option (list (option PositionArg))) :
  noBlankArticles s ->
  noBlankArticles (snd (addArticleHandler argArticleNumber argUsername argQuantity s)) /\
  noBlankArticles (snd (addMultipleArticlesHandler argUsername argPositions s)).
Proof.
  intros Hs. split.
  - unfold addArticleHandler; cbv zeta.
    destruct (String.eqb_spec (trimmedArg argArticleNumber) "") as [_|Ha]; [done|].
    destruct (String.eqb_spec (trimmedArg argUsername) "") as [_|Hu]; [done|].
    unfold bindS at 1. rewrite addToCart_eq. cbn [fst snd positions].
    assert (Hn : noBlankArticles (<[trimmedArg argUsername :=
              mkCart (addMultipleStep (positions (curCart (trimmedArg argUsername) s))
                        (mkPosition (trimmedArg argArticleNumber) (default 1 argQuantity)))]> s)).
    { apply map_Forall_insert_2; [|done]. simpl.
      apply addMultipleStep_noBlank; [by apply noBlank_cur|done]. }
    by destruct (List.find _ _).
  - unfold addMultipleArticlesHandler; cbv zeta.
    destruct (String.eqb_spec (trimmedArg argUsername) "") as [_|Hu]; [done|].
    destruct (Nat.eqb (length (default [] argPositions)) 0); [done|].
    destruct (Nat.eqb (length (normalizePositions (default [] argPositions))) 0); [done|].
    unfold bindS at 1. rewrite addMultipleToCart_eq. cbn [fst snd].
    apply map_Forall_insert_2; [|done]. simpl.
    apply fold_addMultipleStep_noBlank; [by apply noBlank_cur|].
    apply normalizePositions_noBlank.
Qed.

Lemma handlers_never_store_blank_articles_witness :
  noBlankArticles (snd (addMultipleArticlesHandler (Some "bob")
    (Some [Some (mkPositionArg (Some " ") None); Some (mkPositionArg (Some "095210") None)]) ∅)).
Proof.
  refine (proj2 (handlers_never_store_blank_articles ∅ None (Some "bob") None
    (Some [Some (mkPositionArg (Some " ") None); Some (mkPositionArg (Some "095210") None)]) _)).
  apply map_Forall_empty.
Defined.

(** [submit_transgourmet_cart] with a blank user name draws no order id and
    changes nothing; otherwise the message carries the freshly drawn order
    id, the trimmed user's cart is stored empty and no other user's entry
    changes. *)
Theorem submitCartHandler_effect {Seed} (randomUUID : Seed -> string * Seed)
    (argUsername : option string) (s : Store) (seed : Seed) :
  (trimmedArg argUsername = "" ->
   submitCartHandler randomUUID argUsername (s, seed) = ("Missing username.", (s, seed))) /\
  (trimmedArg argUsername <> "" ->
   let '(message, (s', seed')) := submitCartHandler randomUUID argUsername (s, seed) in
   message = ("Cart submitted successfully for user " ++ quoted (trimmedArg argUsername) ++
              ". Order ID: " ++ fst (randomUUID seed) ++ ".")%string /\
   seed' = snd (randomUUID seed) /\
   s' !! trimmedArg argUsername = Some emptyCart /\
   (forall v, v <> trimmedArg argUsername -> s' !! v = s !! v)).
Proof.
  unfold submitCartHandler, submitCart; cbv zeta. split.
  - intros H. by rewrite H.
  - intros H. destruct (String.eqb_spec (trimmedArg argUsername) "") as [E|_]; [contradiction|].
    destruct (randomUUID seed) as [orderId seed'] eqn:Hr. simpl.
    split; [done|]. split; [done|]. split; [by rewrite lookup_insert_eq|].
    intros v Hv. by rewrite lookup_insert_ne.
Qed.

Lemma submitCartHandler_effect_witness :
  submitCartHandler counterUUID (Some "  ") (∅, 7%nat) = ("Missing username.", (∅, 7%nat)).
Proof.
  apply (proj1 (submitCartHandler_effect counterUUID (Some "  ") ∅ 7%nat)). reflexivity.
Defined.

(** ** Further properties of [CartApi] *)

Lemma removeFromCart_eq (u a : string) (s : Store) :
  removeFromCart u a s =
  (mkCart (List.filter (fun pos => negb (String.eqb (articleNumber pos) a)) (positions (curCart u s))),
   <[u := mkCart (List.filter (fun pos => negb (String.eqb (articleNumber pos) a))
                    (positions (curCart u s)))]> s).
Proof. reflexivity. Qed.

Lemma linesFor_filter_other (a b : string) (l : list CartPosition) :
  b <> a ->
  linesFor b (List.filter (fun pos => negb (String.eqb (articleNumber pos) a)) l) = linesFor b l.
Proof.
  intros Hba. induction l as [|x l IH]; [done|]. simpl.
  destruct (String.eqb_spec (articleNumber x) a) as [E|E]; simpl;
    rewrite !linesFor_cons; [|by rewrite IH].
  rewrite decide_False by congruence. exact IH.
Qed.

Lemma filter_removes (a : string) (l : list CartPosition) :
  Forall (fun x => articleNumber x <> a)
    (List.filter (fun pos => negb (String.eqb (articleNumber pos) a)) l).
Proof.
  apply Forall_forall. intros x Hx. apply list_elem_of_In, filter_In in Hx as [_ Hx].
  destruct (String.eqb_spec (articleNumber x) a); [discriminate|done].
Qed.

Lemma filter_article_idem (a : string) (l : list CartPosition) :
  List.filter (fun pos => negb (String.eqb (articleNumber pos) a))
    (List.filter (fun pos => negb (String.eqb (articleNumber pos) a)) l) =
  List.filter (fun pos => negb (String.eqb (articleNumber pos) a)) l.
Proof.
  induction l as [|x l IH]; [done|]. simpl.
  destruct (String.eqb (articleNumber x) a) eqn:E; simpl; [done|].
  rewrite E. simpl. by rewrite IH.
Qed.

(** [removeFromCart] leaves no line for the article, keeps the lines of
    every other article as they were, and removing a second time changes
    nothing. *)
Theorem removeFromCart_idempotent (s : Store) (u a : string) :
  let s1 := snd (removeFromCart u a s) in
  linesFor a (positions (curCart u s1)) = [] /\
  (forall b, b <> a -> linesFor b (positions (curCart u s1)) = linesFor b (positions (curCart u s))) /\
  snd (removeFromCart u a s1) = s1.
Proof.
  cbv zeta. rewrite !removeFromCart_eq. cbn [snd]. rewrite !curCart_insert. cbn [positions].
  split; [by apply linesFor_Forall, filter_removes|]. split.
  - intros b Hb. by apply linesFor_filter_other.
  - by rewrite insert_insert_eq, filter_article_idem.
Qed.

(** Every mutating method writes only the entry of its own user: the
    entries of all other users are left as they were. *)
Theorem operations_frame (s : Store) (u v a : string) (q : Z) (ps : list CartPosition) :
  u <> v ->
  snd (addToCart u a q s) !! v = s !! v /\
  snd (addMultipleToCart u ps s) !! v = s !! v /\
  snd (removeFromCart u a s) !! v = s !! v /\
  snd (updateCartPosition u a q s) !! v = s !! v /\
  snd (clearCart u s) !! v = s !! v.
Proof.
  intros Huv.
  rewrite addToCart_eq, addMultipleToCart_eq, removeFromCart_eq, updateCartPosition_eq.
  unfold clearCart, setS. cbn [snd]. by rewrite !lookup_insert_ne.
Qed.

Lemma operations_frame_witness :
  snd (addToCart "alice" "095210" 1 (<[ "bob" := mkCart [mkPosition "022600" 2] ]> ∅)) !! "bob" =
  Some (mkCart [mkPosition "022600" 2]).
Proof.
  refine (proj1 (operations_frame _ "alice" "bob" "095210" 1 [] _)). discriminate.
Defined.

Lemma sumZ_app (l1 l2 : list Z) : sumZ (l1 ++ l2) = sumZ l1 + sumZ l2.
Proof. induction l1 as [|x l1 IH]; simpl; [done|]. unfold sumZ in *. simpl. lia. Qed.

Lemma sumZ_cons (x : Z) (l : list Z) : sumZ (x :: l) = x + sumZ l.
Proof. reflexivity. Qed.

Lemma getCartItemCount_eq (u : string) (s : Store) :
  getCartItemCount u s = (sumZ (quantity <$> positions (curCart u s)), s).
Proof.
  unfold getCartItemCount, bindS, getCartInternal, retS. by rewrite sumQuantities_eq.
Qed.

Lemma sum_addMultipleStep (ps : list CartPosition) (p : CartPosition) :
  sumZ (quantity <$> addMultipleStep ps p) = sumZ (quantity <$> ps) + quantity p.
Proof.
  unfold addMultipleStep.
  destruct (findIndex (articleNumber p) ps) as [i|] eqn:Hi.
  - destruct (findIndex_Some _ _ _ Hi) as (l1 & x & l2 & -> & -> & _ & _).
    rewrite alter_middle, !fmap_app, !sumZ_app. cbn [fmap list_fmap].
    rewrite !sumZ_cons. unfold addQuantity. simpl. lia.
  - rewrite fmap_app, sumZ_app. cbn [fmap list_fmap quantity]. rewrite sumZ_cons.
    change (sumZ []) with 0. lia.
Qed.

Lemma sum_fold_addMultipleStep (ps0 ps : list CartPosition) :
  sumZ (quantity <$> fold_left addMultipleStep ps0 ps) =
  sumZ (quantity <$> ps) + sumZ (quantity <$> ps0).
Proof.
  revert ps. induction ps0 as [|p ps0 IH]; intros ps; cbn [fold_left].
  - change (sumZ (quantity <$> [])) with 0. lia.
  - rewrite IH, sum_addMultipleStep, fmap_cons, sumZ_cons. lia.
Qed.

Lemma sum_filter_article (a : string) (l : list CartPosition) :
  sumZ (quantity <$> List.filter (fun pos => negb (String.eqb (articleNumber pos) a)) l) =
  sumZ (quantity <$> l) - sumZ (quantity <$> linesFor a l).
Proof.
  induction l as [|x l IH]; [done|]. rewrite linesFor_cons. cbn [List.filter].
  destruct (String.eqb_spec (articleNumber x) a) as [E|E]; cbn [negb].
  - rewrite decide_True by done. rewrite !fmap_cons, !sumZ_cons, IH. lia.
  - rewrite decide_False by done. rewrite !fmap_cons, !sumZ_cons, IH. lia.
Qed.

Lemma sum_update (a : string) (q : Z) (l : list CartPosition) :
  sumZ (quantity <$> match findIndex a l with
                     | Some i => alter (setQuantity q) i l
                     | None => l ++ [mkPosition a q]
                     end) =
  sumZ (quantity <$> l) -
    match List.find (fun pos => String.eqb (articleNumber pos) a) l with
    | Some p => quantity p | None => 0 end + q.
Proof.
  destruct (findIndex a l) as [i|] eqn:Hi.
  - destruct (findIndex_Some _ _ _ Hi) as (l1 & x & l2 & -> & -> & Hx & Hf).
    rewrite alter_middle, find_skip by done. cbn [List.find]. rewrite Hx, String.eqb_refl.
    rewrite !fmap_app, !sumZ_app, !fmap_cons, !sumZ_cons. unfold setQuantity. cbn [quantity]. lia.
  - apply findIndex_None, not_in_Forall in Hi.
    assert (Hn : List.find (fun pos => String.eqb (articleNumber pos) a) l = None).
    { rewrite <- (app_nil_r l). rewrite find_skip by done. done. }
    rewrite Hn, fmap_app, sumZ_app. cbn [fmap list_fmap quantity]. rewrite sumZ_cons.
    change (sumZ []) with 0. lia.
Qed.

(** How the item count of [getCartItemCount] moves under the mutating
    methods: [addToCart] adds its quantity, [addMultipleToCart] the sum of
    the given quantities, [removeFromCart] subtracts the quantities of the
    removed lines, [updateCartPosition] replaces the quantity of the first
    line for the article (or adds a line), and [clearCart] gives 0. *)
Theorem itemCount_after_operations (s : Store) (u a : string) (q : Z) (ps : list CartPosition) :
  let count s := fst (getCartItemCount u s) in
  let cur := positions (curCart u s) in
  count (snd (addToCart u a q s)) = count s + q /\
  count (snd (addMultipleToCart u ps s)) = count s + sumZ (quantity <$> ps) /\
  count (snd (removeFromCart u a s)) = count s - sumZ (quantity <$> linesFor a cur) /\
  count (snd (updateCartPosition u a q s)) =
    count s - match List.find (fun pos => String.eqb (articleNumber pos) a) cur with
              | Some p => quantity p | None => 0 end + q /\
  count (snd (clearCart u s)) = 0.
Proof.
  cbv beta zeta. rewrite !getCartItemCount_eq. cbn [fst].
  rewrite addToCart_eq, addMultipleToCart_eq, removeFromCart_eq, updateCartPosition_eq.
  unfold clearCart, setS. cbn [snd]. rewrite !curCart_insert. simpl positions.
  split; [by rewrite sum_addMultipleStep|].
  split; [by rewrite sum_fold_addMultipleStep|].
  split; [by rewrite sum_filter_article|].
  split; [by rewrite sum_update|done].
Qed.

Lemma articles_upsert (f : CartPosition -> CartPosition) (a : string) (q : Z) (l : list CartPosition) :
  (forall p, articleNumber (f p) = articleNumber p) ->
  articleNumber <$> match findIndex a l with
                    | Some i => alter f i l
                    | None => l ++ [mkPosition a q]
                    end =
  if decide (a ∈ articleNumber <$> l) then articleNumber <$> l else (articleNumber <$> l) ++ [a].
Proof.
  intros Hf. destruct (findIndex a l) as [i|] eqn:Hi.
  - rewrite fmap_alter_article by done. rewrite decide_True; [done|].
    destruct (decide (a ∈ articleNumber <$> l)) as [?|Hn]; [done|].
    apply findIndex_None_iff in Hn. congruence.
  - apply findIndex_None in Hi. rewrite decide_False by done. by rewrite fmap_app.
Qed.

(** [addToCart] and [updateCartPosition] keep the order of the lines: the
    list of article numbers is unchanged when the article already has a
    line, and otherwise grows by the article at the end. *)
Theorem upserts_keep_line_order (s : Store) (u a : string) (q : Z) :
  let before := articleNumber <$> positions (curCart u s) in
  let after := if decide (a ∈ before) then before else before ++ [a] in
  articleNumber <$> positions (curCart u (snd (addToCart u a q s))) = after /\
  articleNumber <$> positions (curCart u (snd (updateCartPosition u a q s))) = after.
Proof.
  cbv zeta. rewrite addToCart_eq, updateCartPosition_eq. cbn [snd]. rewrite !curCart_insert.
  simpl positions. split.
  - unfold addMultipleStep. simpl. by apply articles_upsert.
  - by apply articles_upsert.
Qed.
